(** * pricingapp.py: price ledger and retailer availability search

    A shallow embedding of [pricingapp.py], a Streamlit script.  The script
    is re-run on every interaction; what survives between runs is
    [st.session_state].  The embedding keeps

    - the session state, the widgets drawn and the HTTP requests issued in
      one record [world], threaded through a small state-and-exception
      monad [M];
    - Python floats as binary64 values ([PrimFloat.float]) and the builtin
      [round(x, ndigits)] as CPython computes it (correctly rounded, ties
      to even, on the exact binary value);
    - the [retailers] dict of [search_retailer] as a [gmap string string];
    - the [ThreadPoolExecutor] as a list of futures completed in an order
      chosen by a schedule, then harvested in creation order. *)

From Stdlib Require Import ZArith PrimFloat SpecFloat FloatOps.
From stdpp Require Import base option list strings gmap.
From Stdlib Require Import FloatAxioms.
From stdpp Require Import pretty.

Set Warnings "-inexact-float".
Set Default Proof Using "Type".

Open Scope string_scope.
Open Scope list_scope.

(** ** Python builtins used by the script *)

(** Truth value of a [str]: only the empty string is falsy. *)
Definition truthy (s : string) : bool :=
  match s with
  | EmptyString => false
  | String _ _ => true
  end.

(** [num / den] rounded to the nearest integer, ties to the even one
    ([den] positive, [num] non-negative). *)
Definition round_half_even (num den : Z) : Z :=
  let q := (num / den)%Z in
  let r := (num mod den)%Z in
  match (2 * r ?= den)%Z with
  | Lt => q
  | Gt => (q + 1)%Z
  | Eq => if Z.even q then q else (q + 1)%Z
  end.

(** The integer nearest to [m * 2^e * 10^ndigits]: the digits that
    [_Py_dg_dtoa] (mode 3) produces for the magnitude of a finite float. *)
Definition scaled_digits (m : positive) (e ndigits : Z) : Z :=
  let p := (10 ^ ndigits)%Z in
  match e with
  | Zneg k => round_half_even (Zpos m * p) (2 ^ Zpos k)
  | _ => (Zpos m * p * 2 ^ e)%Z
  end.

(** [round(x, ndigits)] on a float, for [0 <= ndigits] below CPython's
    cut-off (the script only uses [ndigits = 2]): the float is turned into
    the decimal with [ndigits] fractional digits nearest to its exact value,
    ties to even, and that decimal is read back as the nearest float.
    Zeros, infinities and NaN round to themselves; the sign is kept. *)
Definition round (x : float) (ndigits : Z) : float :=
  match Prim2SF x with
  | S754_finite s m e =>
      match scaled_digits m e ndigits with
      | Zpos n =>
          SF2Prim (SFdiv prec emax (S754_finite s n 0)
                     (S754_finite false (Z.to_pos (10 ^ ndigits)) 0))
      | _ => SF2Prim (S754_zero s)
      end
  | _ => x
  end.

(** ** Data *)

(** The dict returned by [search_retailer]. *)
Record probe_result := ProbeResult {
  Retailer : string;
  URL : string;
  Status : string
}.

(** One row of the [products] frame; the fields are its seven columns. *)
Record product_row := ProductRow {
  Product_Name : string;
  SKU : string;
  Your_Price : float;
  Competitor : string;
  Competitor_Price : float;
  Price_Difference : float;
  Date_Added : string
}.

(** A [pd.DataFrame] with the seven columns above: its rows, in index
    order. *)
Definition DataFrame := list product_row.

(** A cell of an exported table. *)
Inductive cell :=
  | Text (s : string)
  | Number (x : float).

(** What the script draws. *)
Inductive element :=
  | StSuccess (body : string)
  | StError (body : string)
  | StWarning (body : string)
  | StInfo (body : string)
  | StMarkdown (body : string)
  | StWrite (body : string)
  | StDownloadButton (label : string) (data : list (list cell))
      (file_name mime : string).

(** Exceptions the modelled code can raise. *)
Inductive transport_failure :=
  | Timeout
  | NameResolution
  | ConnectionRefused.

Inductive exn :=
  | KeyError (key : string)
  | RequestException (e : transport_failure).

(** What the network answers to a GET of a URL. *)
Inductive reply :=
  | Response (status_code : Z)
  | Failure (e : transport_failure).

(** ** The world and the monad *)

Record world := World {
  products : DataFrame;                 (* st.session_state.products *)
  search_results : list probe_result;   (* st.session_state.search_results *)
  screen : list element;                (* elements drawn, oldest first *)
  wire : list string                    (* URLs requested, oldest first *)
}.

(** Lines 38-41: a fresh session. *)
Definition init_session : world :=
  {| products := []; search_results := []; screen := []; wire := [] |}.

Inductive outcome (A : Type) :=
  | Ok (a : A)
  | Raise (e : exn).
Arguments Ok {A} a.
Arguments Raise {A} e.

Definition M (A : Type) : Type := world → outcome A * world.

Definition ret {A} (a : A) : M A := λ w, (Ok a, w).

Definition bind {A B} (c : M A) (k : A → M B) : M B :=
  λ w, match c w with
       | (Ok a, w') => k a w'
       | (Raise e, w') => (Raise e, w')
       end.

Definition raise {A} (e : exn) : M A := λ w, (Raise e, w).

(** [try: body except Exception: handler]. *)
Definition try_except {A} (body : M A) (handler : exn → M A) : M A :=
  λ w, match body w with
       | (Ok a, w') => (Ok a, w')
       | (Raise e, w') => handler e w'
       end.

Notation "x <- c ;; k" := (bind c (λ x, k))
  (at level 100, c at next level, right associativity).
Notation "c ;;; k" := (bind c (λ _, k))
  (at level 100, k at level 200, right associativity).

Definition draw (e : element) : M unit :=
  λ w, (Ok tt, {| products := products w; search_results := search_results w;
                  screen := screen w ++ [e]; wire := wire w |}).

Definition get_products : M DataFrame := λ w, (Ok (products w), w).

Definition set_products (df : DataFrame) : M unit :=
  λ w, (Ok tt, {| products := df; search_results := search_results w;
                  screen := screen w; wire := wire w |}).

(** The requests in [reqs] leave the process, in that order. *)
Definition transmit (reqs : list string) (w : world) : world :=
  {| products := products w; search_results := search_results w;
     screen := screen w; wire := wire w ++ reqs |}.

(** [for x in xs: body x]. *)
Fixpoint for_each {A} (xs : list A) (body : A → M unit) : M unit :=
  match xs with
  | [] => ret tt
  | x :: rest => body x ;;; for_each rest body
  end.

(** ** The ledger: sidebar form and export (lines 169-201) *)

(** [pd.concat(frames, ignore_index=True)] on frames with the same
    columns. *)
Definition pd_concat (frames : list DataFrame) : DataFrame := concat frames.

(** Lines 179-187: the dict [new_product].  [today] is
    [datetime.now().strftime("%Y-%m-%d")]; the other arguments are the
    values of the five sidebar inputs. *)
Definition new_product (today : string) (product_name sku : string)
    (your_price : float) (competitor : string) (competitor_price : float)
    : product_row :=
  {| Product_Name := product_name;
     SKU := sku;
     Your_Price := your_price;
     Competitor := competitor;
     Competitor_Price := competitor_price;
     Price_Difference := round (your_price - competitor_price) 2;
     Date_Added := today |}.

(** The body of [if st.button("Add Product"):] (lines 178-192). *)
Definition add_product (today : string) (product_name sku : string)
    (your_price : float) (competitor : string) (competitor_price : float)
    : M unit :=
  if truthy product_name && truthy competitor then
    df <- get_products ;;
    set_products
      (pd_concat
         [df; [new_product today product_name sku your_price competitor
                 competitor_price]]) ;;;
    draw (StSuccess "Product added successfully!")
  else ret tt.

(** One press of "Add Product": the day it happens and the sidebar
    inputs at that moment. *)
Record add_click := AddClick {
  today : string;
  product_name : string;
  sku : string;
  your_price : float;
  competitor : string;
  competitor_price : float
}.

Definition press (c : add_click) : M unit :=
  add_product (today c) (product_name c) (sku c) (your_price c)
    (competitor c) (competitor_price c).

Definition row_of (c : add_click) : product_row :=
  new_product (today c) (product_name c) (sku c) (your_price c)
    (competitor c) (competitor_price c).

(** The press passes the check of line 178, the spec's "successful
    addRecord". *)
Definition accepted (c : add_click) : Prop :=
  truthy (product_name c) && truthy (competitor c) = true.

Definition columns : list string :=
  ["Product Name"; "SKU"; "Your Price"; "Competitor"; "Competitor Price";
   "Price Difference"; "Date Added"].

Definition csv_row (r : product_row) : list cell :=
  [Text (Product_Name r); Text (SKU r); Number (Your_Price r);
   Text (Competitor r); Number (Competitor_Price r);
   Number (Price_Difference r); Text (Date_Added r)].

(** [df.to_csv(index=False)] as a table: the header row, then one row per
    record in frame order.  How pandas prints a float and quotes a text
    cell is outside the script; cells are kept as values. *)
Definition to_csv (df : DataFrame) : list (list cell) :=
  map Text columns :: map csv_row df.

(** Lines 195-201.  [stamp] is [datetime.now().strftime('%Y%m%d')]. *)
Definition export_section (stamp : string) : M unit :=
  df <- get_products ;;
  match df with
  | [] => ret tt
  | _ :: _ =>
      draw (StDownloadButton "Export Data to CSV" (to_csv df)
              ("price_comparison_" +:+ stamp +:+ ".csv") "text/csv")
  end.

(** The cells of the column called [name] in the data rows of a table
    whose first row is the header. *)
Fixpoint column_index (name : string) (header : list cell) : option nat :=
  match header with
  | [] => None
  | Text s :: rest =>
      if String.eqb s name then Some 0 else S <$> column_index name rest
  | Number _ :: rest => S <$> column_index name rest
  end.

Definition csv_column (name : string) (table : list (list cell)) : list cell :=
  match table with
  | [] => []
  | header :: rows =>
      match column_index name header with
      | Some i => omap (λ row : list cell, row !! i) rows
      | None => []
      end
  end.

(** ** The availability search (lines 43-87) *)

(** The network: what a GET of each URL meets.  A response carries its
    status code; a transport failure makes [requests.get] raise. *)
Definition network := string → reply.

(** [requests.get(url, headers=headers, timeout=10)]: the request goes on
    the wire, then either a response comes back or an exception is
    raised. *)
Definition requests_get (net : network) (url : string) : M Z :=
  λ w, match net url with
       | Response status_code => (Ok status_code, transmit [url] w)
       | Failure e => (Raise (RequestException e), transmit [url] w)
       end.

(** Lines 51-55: the dict of search URLs, built from f-strings. *)
Definition retailers (sku : string) : gmap string string :=
  <["Amazon" := "https://www.amazon.com/s?k=" +:+ sku]>
  (<["Walmart" := "https://www.walmart.com/search?q=" +:+ sku]>
  (<["Best Buy" := "https://www.bestbuy.com/site/searchpage.jsp?st=" +:+ sku]>
   ∅)).

(** [d[key]]. *)
Definition subscript (d : gmap string string) (key : string) : M string :=
  match d !! key with
  | Some v => ret v
  | None => raise (KeyError key)
  end.

(** Lines 43-71.  Falling off the end of the [try] block returns [None]. *)
Definition search_retailer (net : network) (retailer sku : string)
    : M (option probe_result) :=
  try_except
    (url <- subscript (retailers sku) retailer ;;
     status_code <- requests_get net url ;;
     if (status_code =? 200)%Z then
       ret (Some {| Retailer := retailer; URL := url; Status := "Available" |})
     else ret None)
    (λ e,
       url <- subscript (retailers sku) retailer ;;
       ret (Some {| Retailer := retailer; URL := url;
                    Status := "Error checking availability" |})).

(** *** The thread pool *)

(** A future: the call it was submitted with, and its outcome once a
    worker has run it ([None] while pending).  A call runs once. *)
Record future (A : Type) := Future {
  fn : M A;
  state : option (outcome A)
}.
Arguments Future {A} fn state.
Arguments fn {A} f.
Arguments state {A} f.

(** [executor.submit(fn, ...)]. *)
Definition submit {A} (call : M A) : future A :=
  {| fn := call; state := None |}.

(** A worker picks up future number [i] and runs it to completion.  A
    future that is already done, or a number past the end, changes
    nothing. *)
Definition complete {A} (i : nat) (st : list (future A) * world)
    : list (future A) * world :=
  match st.1 !! i with
  | Some f =>
      match state f with
      | None =>
          let (r, w') := fn f st.2 in
          (<[i := {| fn := fn f; state := Some r |}]> st.1, w')
      | Some _ => st
      end
  | None => st
  end.

(** The workers complete futures in the order the schedule lists them.
    The schedule stands for the interleaving of the threads: any list of
    numbers is one, and the permutations of the future numbers cover every
    order in which three concurrent requests can finish. *)
Definition run_workers {A} (schedule : list nat) (st : list (future A) * world)
    : list (future A) * world :=
  foldl (λ st i, complete i st) st schedule.

(** [future.result()]: the outcome if the future is done; otherwise the
    caller waits while a worker runs it. *)
Definition future_result {A} (f : future A) : world → outcome A * world :=
  λ w, match state f with
       | Some r => (r, w)
       | None => fn f w
       end.

(** Leaving the [with] block: [shutdown(wait=True)] lets every pending
    future run. *)
Definition shutdown {A} (futures : list (future A)) (w : world) : world :=
  foldl (λ w f, (future_result f w).2) w futures.

(** Lines 82-85: the futures are visited in creation order; a truthy
    result (a dict) is appended, [None] is skipped, and an exception of a
    call resurfaces at its [result()]. *)
Fixpoint harvest (futures : list (future (option probe_result)))
    (results : list probe_result) : M (list probe_result) :=
  match futures with
  | [] => ret results
  | future :: rest =>
      λ w, match future_result future w with
           | (Ok (Some result), w') => harvest rest (results ++ [result]) w'
           | (Ok None, w') => harvest rest results w'
           | (Raise e, w') => (Raise e, shutdown rest w')
           end
  end.

(** Lines 78-87 with the local list [retailers] as an argument. *)
Definition search_each (net : network) (schedule : list nat)
    (retailers : list string) (sku : string) : M (list probe_result) :=
  λ w,
    let results := [] in
    let futures :=
      map (λ retailer, submit (search_retailer net retailer sku)) retailers in
    let (futures, w) := run_workers schedule (futures, w) in
    harvest futures results w.

(** Lines 73-87. *)
Definition search_all_retailers (net : network) (schedule : list nat)
    (sku : string) : M (list probe_result) :=
  let retailers := ["Amazon"; "Walmart"; "Best Buy"] in
  search_each net schedule retailers sku.

(** The body of [if st.button("Search Prices", type="primary"):] (lines
    144-166).  [sku_input] and [retailers_to_search] are the values of the
    text input and of the "Select Retailers" multiselect. *)
Definition search_prices (net : network) (schedule : list nat)
    (sku_input : string) (retailers_to_search : list string) : M unit :=
  if truthy sku_input then
    results <- search_all_retailers net schedule sku_input ;;
    match results with
    | _ :: _ =>
        draw (StSuccess ("Found product listings for SKU: " +:+ sku_input)) ;;;
        draw (StMarkdown "### Available at:") ;;;
        for_each results (λ result,
          draw (StWrite ("**" +:+ Retailer result +:+ "** - " +:+ Status result)) ;;;
          draw (StMarkdown ("[View Product](" +:+ URL result +:+ ")")) ;;;
          draw (StMarkdown "---")) ;;;
        draw (StInfo "Note: Due to retailer restrictions, exact prices are not shown. Click the links to view current prices on each website.")
    | [] =>
        draw (StWarning "No results found for this SKU. Try another SKU number.")
    end
  else draw (StError "Please enter a SKU number").

(** * Vocabulary for the properties *)

(** The status strings the script gives to the spec's [Available] and
    [Error]. *)
Definition Available : string := "Available".
Definition Error : string := "Error checking availability".

(** A 2xx status code. *)
Definition success_class (status_code : Z) : bool :=
  (200 <=? status_code)%Z && (status_code <? 300)%Z.

(** Every request meets a transport failure. *)
Definition all_fail (net : network) : Prop :=
  ∀ url, ∃ e, net url = Failure e.

(** The three URLs of lines 52-54. *)
Definition amazon_url (sku : string) : string :=
  "https://www.amazon.com/s?k=" +:+ sku.
Definition walmart_url (sku : string) : string :=
  "https://www.walmart.com/search?q=" +:+ sku.
Definition bestbuy_url (sku : string) : string :=
  "https://www.bestbuy.com/site/searchpage.jsp?st=" +:+ sku.

(** The retailer has an entry in the dict of [search_retailer]. *)
Definition configured (sku retailer : string) : Prop :=
  is_Some (retailers sku !! retailer).

(** What a call of [search_retailer] comes to, and what it sends. *)
Definition outcome_of (net : network) (sku retailer : string)
    : outcome (option probe_result) :=
  match retailers sku !! retailer with
  | None => Raise (KeyError retailer)
  | Some url =>
      match net url with
      | Response status_code =>
          if (status_code =? 200)%Z then
            Ok (Some {| Retailer := retailer; URL := url; Status := Available |})
          else Ok None
      | Failure _ =>
          Ok (Some {| Retailer := retailer; URL := url; Status := Error |})
      end
  end.

Definition requests_of (sku retailer : string) : list string :=
  match retailers sku !! retailer with
  | None => []
  | Some url => [url]
  end.

(** The entry a retailer gets in the result list, if any. *)
Definition listing (net : network) (sku retailer : string)
    : option probe_result :=
  match outcome_of net sku retailer with
  | Ok o => o
  | Raise _ => None
  end.

(** Future [f] was submitted for [retailer] and, if done, holds the
    outcome of that probe. *)
Definition tracks (net : network) (sku retailer : string)
    (f : future (option probe_result)) : Prop :=
  fn f = search_retailer net retailer sku
  ∧ (state f = None ∨ state f = Some (outcome_of net sku retailer)).

(** The requests of the probes that have not run yet. *)
Definition unsent_by (sku retailer : string)
    (f : future (option probe_result)) : list string :=
  match state f with
  | None => requests_of sku retailer
  | Some _ => []
  end.

Definition unsent (sku : string) (rs : list string)
    (fs : list (future (option probe_result))) : list string :=
  concat (zip_with (unsent_by sku) rs fs).

(** The futures of line 81, just after submission. *)
Definition submitted (net : network) (sku : string) (rs : list string)
    : list (future (option probe_result)) :=
  map (λ retailer, submit (search_retailer net retailer sku)) rs.

(** The results the loop of lines 82-85 gathers from a list of
    outcomes. *)
Fixpoint gather (outcomes : list (outcome (option probe_result)))
    (results : list probe_result) : outcome (list probe_result) :=
  match outcomes with
  | [] => Ok results
  | Ok (Some result) :: rest => gather rest (results ++ [result])
  | Ok None :: rest => gather rest results
  | Raise e :: _ => Raise e
  end.

(** A computation that sends nothing. *)
Definition quiet {A} (c : M A) : Prop := ∀ w, wire (c w).2 = wire w.

(** Sample inputs. *)
Definition unreachable : network := λ _, Failure Timeout.

Definition walmart_404 : network := λ url,
  if String.eqb url (walmart_url "W1") then Response 404 else Response 200.

Definition walmart_times_out : network := λ url,
  if String.eqb url (walmart_url "W1") then Failure Timeout else Response 200.

(** Walmart times out; the other two answer 204 No Content. *)
Definition walmart_times_out_204 : network := λ url,
  if String.eqb url (walmart_url "W1") then Failure Timeout else Response 204.

Definition two_presses : list add_click :=
  [ {| today := "2026-11-03"; product_name := "Widget"; sku := "W1";
       your_price := 9.99; competitor := "ACME"; competitor_price := 10.49 |};
    {| today := "2026-11-04"; product_name := "Gadget"; sku := "";
       your_price := 5; competitor := "Initech"; competitor_price := 4.25 |} ].

(** * The rest of the script *)

(** ** Tab 1: the table and the price analysis (lines 95-127) *)

(** Lines 102-106.  [val] is a cell of the frame, a float or a str;
    [val > 0] is false for NaN. *)
Definition highlight_price_difference (val : cell) : string :=
  match val with
  | Number x =>
      let color := if PrimFloat.ltb 0 x then "red" else "green" in
      "color: " +:+ color
  | Text _ => ""
  end.

(** [df.style.applymap(f, subset=['Price Difference'])]: the style of
    each cell of that column, in row order. *)
Definition applymap_price_difference (f : cell → string) (df : DataFrame)
    : list string :=
  map (λ r, f (Number (Price_Difference r))) df.

(** [len(...)], a Python int. *)
Definition len {A} (l : list A) : Z := Z.of_nat (length l).

(** Line 119. *)
Definition total_products (df : DataFrame) : Z := len df.

(** Line 120: the rows whose Price Difference is [<= 0]. *)
Definition competitive_prices (df : DataFrame) : Z :=
  len (List.filter (λ r, PrimFloat.leb (Price_Difference r) 0) df).

(** Line 124. *)
Definition need_review (df : DataFrame) : Z :=
  (total_products df - competitive_prices df)%Z.

Definition two_digits (n : Z) : string :=
  if (n <? 10)%Z then "0" +:+ pretty n else pretty n.

(** [f"{x:.2f}"]: the decimal with two fractional digits nearest to the
    exact value of the float, ties to even, with all its integer digits. *)
Definition format_2f (x : float) : string :=
  match Prim2SF x with
  | S754_zero s => (if s then "-" else "") +:+ "0.00"
  | S754_infinity s => if s then "-inf" else "inf"
  | S754_nan => "nan"
  | S754_finite s m e =>
      let n := scaled_digits m e 2 in
      (if s then "-" else "") +:+ pretty (n / 100)%Z +:+ "."
        +:+ two_digits (n mod 100)%Z
  end.

Inductive metric_value :=
  | IntValue (n : Z)
  | StrValue (s : string).

(** What tab 1 draws; [Drawn] wraps the elements it shares with the
    handlers. *)
Inductive widget :=
  | Subheader (body : string)
  | Dataframe (data : DataFrame) (price_difference_styles : list string)
  | Metric (label : string) (value : metric_value)
  | Drawn (e : element).

(** Lines 99-114, the left column. *)
Definition tab1_table (df : DataFrame) : list widget :=
  Subheader "Product Price Comparison" ::
  match df with
  | _ :: _ =>
      [Dataframe df (applymap_price_difference highlight_price_difference df)]
  | [] =>
      [Drawn (StInfo "No products added yet. Use the sidebar to add products.")]
  end.

(** Lines 116-127, the right column.  [mean] is pandas' [Series.mean] on
    the Price Difference column; its float summation is outside the
    script. *)
Definition tab1_analysis (mean : list float → float) (df : DataFrame)
    : list widget :=
  match df with
  | _ :: _ =>
      let avg_price_diff := mean (map Price_Difference df) in
      [Subheader "Price Analysis";
       Metric "Total Products" (IntValue (total_products df));
       Metric "Competitive Prices" (IntValue (competitive_prices df));
       Metric "Need Review" (IntValue (need_review df));
       Metric "Average Price Difference"
         (StrValue ("$" +:+ format_2f avg_price_diff))]
  | [] => []
  end.

Definition tab1 (mean : list float → float) (df : DataFrame) : list widget :=
  tab1_table df ++ tab1_analysis mean df.

(** ** One run of the script *)

(** What one run of the script meets: the widget values (a button is
    [true] only in the run its press triggers), the two clock readings,
    the network and the interleaving of the workers. *)
Record run := Run {
  search_pressed : bool;
  sku_input : string;
  retailers_to_search : list string;
  add_pressed : bool;
  sidebar : add_click;
  stamp : string;
  net_of_run : network;
  schedule_of_run : list nat
}.

(** Lines 143-166. *)
Definition tab2_section (r : run) : M unit :=
  if search_pressed r then
    search_prices (net_of_run r) (schedule_of_run r) (sku_input r) (retailers_to_search r)
  else ret tt.

(** Lines 177-192. *)
Definition sidebar_section (r : run) : M unit :=
  if add_pressed r then press (sidebar r) else ret tt.

(** The state-changing part of a run, in script order: tab 2, the
    sidebar, the export button.  What the script draws regardless of the
    state (page title, style sheet, the input widgets and their captions)
    is not recorded. *)
Definition handlers (r : run) : M unit :=
  tab2_section r ;;; sidebar_section r ;;; export_section (stamp r).

(** A whole run.  Tab 1 comes first in the script and only reads the
    session, so it shows the ledger as the run finds it. *)
Definition script (mean : list float → float) (r : run) (w : world)
    : list widget * (outcome unit * world) :=
  (tab1 mean (products w), handlers r w).

(** A session: the world after a sequence of runs. *)
Definition session (runs : list run) (w : world) : world :=
  foldl (λ w r, (handlers r w).2) w runs.

(** * More vocabulary *)

(** The search of run [r] goes out to the retailers. *)
Definition searches (r : run) : bool := search_pressed r && truthy (sku_input r).

(** The add of run [r] is accepted. *)
Definition adds (r : run) : bool :=
  add_pressed r && truthy (product_name (sidebar r)) && truthy (competitor (sidebar r)).

(** A row as [add_product] makes them. *)
Definition well_formed (r : product_row) : Prop :=
  Price_Difference r = round (Your_Price r - Competitor_Price r) 2
  ∧ Product_Name r ≠ ""
  ∧ Competitor r ≠ "".


Definition is_nan (x : float) : Prop := Prim2SF x = S754_nan.

(** Neither NaN nor an infinity: what a number input can hold. *)
Definition finite (x : float) : Prop :=
  match Prim2SF x with
  | S754_zero _ | S754_finite _ _ _ => True
  | S754_infinity _ | S754_nan => False
  end.

(** The requests of one search. *)
Definition search_urls (sku : string) : list string :=
  [amazon_url sku; walmart_url sku; bestbuy_url sku].

(** What the "Search Prices" handler draws for a result list. *)
Definition report (sku_input : string) (results : list probe_result)
    : list element :=
  match results with
  | [] => [StWarning "No results found for this SKU. Try another SKU number."]
  | _ :: _ =>
      StSuccess ("Found product listings for SKU: " +:+ sku_input)
      :: StMarkdown "### Available at:"
      :: concat (map (λ result,
           [StWrite ("**" +:+ Retailer result +:+ "** - " +:+ Status result);
            StMarkdown ("[View Product](" +:+ URL result +:+ ")");
            StMarkdown "---"]) results)
      ++ [StInfo "Note: Due to retailer restrictions, exact prices are not shown. Click the links to view current prices on each website."]
  end.

(** Every request is answered, none with status 200. *)
Definition all_refuse (net : network) : Prop :=
  ∀ url, ∃ code, net url = Response code ∧ code ≠ 200%Z.

Definition forbidden : network := λ _, Response 403.

Definition add_widget_run : run :=
  {| search_pressed := false; sku_input := ""; retailers_to_search := [];
     add_pressed := true;
     sidebar := {| today := "2026-11-03"; product_name := "Widget"; sku := "W1";
                   your_price := 9.99; competitor := "ACME";
                   competitor_price := 10.49 |};
     stamp := "20261103"; net_of_run := unreachable;
     schedule_of_run := [] |}.

Definition mean_of_head : list float → float := λ xs, default 0%float (head xs).

(** * Properties *)

(** ** The builtin [round] on the values the spec names *)

Example round_half_way_binary : round 0.125 2 = 0.12%float.
Proof. reflexivity. Qed.

Example round_odd_half_way : round 0.375 2 = 0.38%float.
Proof. reflexivity. Qed.

Example round_decimal_literal : round 2.675 2 = 2.67%float.
Proof. reflexivity. Qed.

Example round_keeps_sign_of_zero : round (-0.001) 2 = (-0)%float.
Proof. reflexivity. Qed.

Example round_price_gap : round (9.99 - 10.49) 2 = (-0.5)%float.
Proof. reflexivity. Qed.

(** ** The ledger *)

Section Ledger.

Implicit Types (w : world) (c : add_click) (df : DataFrame).

Lemma add_product_accepted d n s yp comp cp w :
  truthy n && truthy comp = true →
  add_product d n s yp comp cp w =
    (Ok tt,
     {| products := products w ++ [new_product d n s yp comp cp];
        search_results := search_results w;
        screen := screen w ++ [StSuccess "Product added successfully!"];
        wire := wire w |}).
Proof.
  intros Hgo. unfold add_product. by rewrite Hgo.
Qed.

Lemma add_product_refused d n s yp comp cp w :
  truthy n && truthy comp = false →
  add_product d n s yp comp cp w = (Ok tt, w).
Proof. intros Hno. unfold add_product. by rewrite Hno. Qed.

Lemma press_accepted c w :
  accepted c →
  press c w =
    (Ok tt,
     {| products := products w ++ [row_of c];
        search_results := search_results w;
        screen := screen w ++ [StSuccess "Product added successfully!"];
        wire := wire w |}).
Proof. intros Hc. by apply add_product_accepted. Qed.

Lemma for_each_press_products cs : ∀ w,
  Forall accepted cs →
  products (for_each cs press w).2 = products w ++ map row_of cs.
Proof.
  induction cs as [|c cs IH]; intros w Hcs.
  - cbn. by rewrite app_nil_r.
  - apply Forall_cons in Hcs as [Hc Hcs].
    cbn. unfold bind. rewrite (press_accepted c w Hc).
    rewrite IH by done. cbn. by rewrite <- app_assoc.
Qed.

End Ledger.

(** C6: an accepted add creates, at the end of the ledger, a record that
    holds the two prices as entered and whose Price Difference is
    [round(Your Price - Competitor Price, 2)], computed from those two
    fields when the record is made.  (It holds for every pair of floats,
    so in particular for the non-negative ones the inputs allow.) *)
Theorem add_product_price_difference d n s yp comp cp w :
  truthy n && truthy comp = true →
  ∃ r, products (add_product d n s yp comp cp w).2 = products w ++ [r]
       ∧ Your_Price r = yp
       ∧ Competitor_Price r = cp
       ∧ Price_Difference r = round (Your_Price r - Competitor_Price r) 2.
Proof.
  intros Hgo. rewrite add_product_accepted by done.
  by exists (new_product d n s yp comp cp).
Qed.

Lemma add_product_price_difference_witness :
  truthy "Widget" && truthy "ACME" = true
  ∧ ∃ r, products (add_product "2026-11-03" "Widget" "W1" 19.99 "ACME" 17.5
                     init_session).2 = products init_session ++ [r]
         ∧ Your_Price r = 19.99%float
         ∧ Competitor_Price r = 17.5%float
         ∧ Price_Difference r = round (Your_Price r - Competitor_Price r) 2.
Proof.
  split; [reflexivity|].
  apply (add_product_price_difference "2026-11-03" "Widget" "W1" 19.99 "ACME"
           17.5 init_session).
  reflexivity.
Defined.

(** C7: adding Widget / W1 / 9.99 / 10.49 / ACME to a fresh ledger gives a
    ledger of one record, and its export is a header row and one data row
    whose Price Difference cell is the number -0.50. *)
Theorem export_widget_price_difference d stamp :
  let w := (add_product d "Widget" "W1" 9.99 "ACME" 10.49 init_session).2 in
  length (products w) = 1
  ∧ ∃ data,
      screen (export_section stamp w).2 =
        screen w ++ [StDownloadButton "Export Data to CSV" data
                       ("price_comparison_" +:+ stamp +:+ ".csv") "text/csv"]
      ∧ length data = 2
      ∧ csv_column "Product Name" data = [Text "Widget"]
      ∧ csv_column "Price Difference" data = [Number (-0.50)].
Proof.
  cbn zeta. rewrite add_product_accepted by reflexivity.
  split; [reflexivity|].
  eexists. split; [reflexivity|].
  split; [reflexivity|]. split; reflexivity.
Qed.

(** C8: starting from an empty ledger, N accepted adds leave exactly N
    records, the k-th record being the one made by the k-th add. *)
Theorem ledger_after_presses cs w :
  products w = [] →
  Forall accepted cs →
  let w' := (for_each cs press w).2 in
  length (products w') = length cs ∧ products w' = map row_of cs.
Proof.
  intros Hempty Hcs w'. subst w'.
  rewrite for_each_press_products, Hempty by done.
  cbn. by rewrite length_map.
Qed.

Lemma ledger_after_presses_witness :
  products init_session = []
  ∧ Forall accepted two_presses
  ∧ length (products (for_each two_presses press init_session).2) = 2
  ∧ products (for_each two_presses press init_session).2 =
      map row_of two_presses.
Proof.
  assert (Hacc : Forall accepted two_presses)
    by (repeat constructor).
  split; [reflexivity|]. split; [exact Hacc|].
  exact (ledger_after_presses two_presses init_session eq_refl Hacc).
Defined.

(** C9: an accepted add puts the new record after the last one, and every
    record that was in the ledger is still there, at the same position and
    with the same content. *)
Theorem add_product_appends d n s yp comp cp w :
  truthy n && truthy comp = true →
  let w' := (add_product d n s yp comp cp w).2 in
  products w' = products w ++ [new_product d n s yp comp cp]
  ∧ products w' !! length (products w) = Some (new_product d n s yp comp cp)
  ∧ ∀ i r, products w !! i = Some r → products w' !! i = Some r.
Proof.
  intros Hgo w'. subst w'. rewrite add_product_accepted by done.
  cbn [snd products].
  split; [done|]. split.
  - apply list_lookup_middle. done.
  - intros i r Hi. by apply lookup_app_l_Some.
Qed.

Lemma add_product_appends_witness :
  let w := (for_each two_presses press init_session).2 in
  let w' := (add_product "2026-11-05" "Doohickey" "D7" 3 "ACME" 3 w).2 in
  truthy "Doohickey" && truthy "ACME" = true
  ∧ products w' = products w ++ [new_product "2026-11-05" "Doohickey" "D7" 3 "ACME" 3]
  ∧ products w' !! length (products w) =
      Some (new_product "2026-11-05" "Doohickey" "D7" 3 "ACME" 3)
  ∧ ∀ i r, products w !! i = Some r → products w' !! i = Some r.
Proof.
  intros w w'. split; [reflexivity|].
  apply (add_product_appends "2026-11-05" "Doohickey" "D7" 3 "ACME" 3 w).
  reflexivity.
Defined.

(** C10: with an empty Product Name the add is dropped and the ledger is
    untouched, but nothing is drawn either: the world after the press is
    the world before it, so no validation message reaches the user. *)
Theorem add_product_empty_name_silent :
  add_product "2026-11-03" "" "W1" 9.99 "ACME" 10.49 init_session
  = (Ok tt, init_session).
Proof. reflexivity. Qed.

(** ** The availability search *)

Section Search.

Variable net : network.
Variable sku : string.

Implicit Types (w : world) (retailer : string) (rs : list string)
  (f : future (option probe_result)) (fs : list (future (option probe_result)))
  (results : list probe_result).

Lemma transmit_nil w : transmit [] w = w.
Proof. destruct w. unfold transmit. cbn. by rewrite app_nil_r. Qed.

Lemma transmit_transmit reqs reqs' w :
  transmit reqs' (transmit reqs w) = transmit (reqs ++ reqs') w.
Proof. unfold transmit. cbn. by rewrite app_assoc. Qed.

(** *** One probe *)

Lemma search_retailer_spec retailer w :
  search_retailer net retailer sku w
  = (outcome_of net sku retailer, transmit (requests_of sku retailer) w).
Proof.
  unfold search_retailer, try_except, bind, subscript, outcome_of, requests_of.
  destruct (retailers sku !! retailer) as [url|] eqn:Hurl; cbn.
  - unfold requests_get. destruct (net url) as [code|e]; cbn.
    + by destruct (code =? 200)%Z.
    + done.
  - by rewrite transmit_nil.
Qed.

Lemma retailers_Amazon : retailers sku !! "Amazon" = Some (amazon_url sku).
Proof. reflexivity. Qed.

Lemma retailers_Walmart : retailers sku !! "Walmart" = Some (walmart_url sku).
Proof. reflexivity. Qed.

Lemma retailers_Best_Buy : retailers sku !! "Best Buy" = Some (bestbuy_url sku).
Proof. reflexivity. Qed.

Lemma fixed_retailers_configured :
  Forall (configured sku) ["Amazon"; "Walmart"; "Best Buy"].
Proof. repeat constructor; by eexists. Qed.

(** The dict has exactly the three retailers that [search_all_retailers]
    submits. *)
Lemma configured_fixed retailer :
  configured sku retailer → retailer ∈ ["Amazon"; "Walmart"; "Best Buy"].
Proof.
  intros [url Hurl]. unfold retailers in Hurl.
  apply lookup_insert_Some in Hurl as [[<- _]|[_ Hurl]]; [set_solver|].
  apply lookup_insert_Some in Hurl as [[<- _]|[_ Hurl]]; [set_solver|].
  apply lookup_insert_Some in Hurl as [[<- _]|[_ Hurl]]; [set_solver|].
  by rewrite lookup_empty in Hurl.
Qed.

Lemma listing_Retailer retailer r :
  listing net sku retailer = Some r → Retailer r = retailer.
Proof.
  unfold listing, outcome_of.
  destruct (retailers sku !! retailer) as [url|]; [|done].
  destruct (net url) as [code|e]; [destruct (code =? 200)%Z|];
    intros [= <-]; done.
Qed.

Lemma listing_all_fail retailer url :
  all_fail net →
  retailers sku !! retailer = Some url →
  listing net sku retailer
  = Some {| Retailer := retailer; URL := url; Status := Error |}.
Proof.
  intros Hnet Hurl. unfold listing, outcome_of. rewrite Hurl.
  by destruct (Hnet url) as [e ->].
Qed.

Lemma omap_listing_all_fail rs :
  all_fail net →
  Forall (configured sku) rs →
  map Retailer (omap (listing net sku) rs) = rs
  ∧ Forall (λ r, Status r = Error) (omap (listing net sku) rs).
Proof.
  intros Hnet. induction 1 as [|retailer rs [url Hurl] _ [IHr IHs]]; [done|].
  cbn. rewrite (listing_all_fail retailer url) by done. cbn.
  split; [by rewrite IHr|by constructor].
Qed.

(** *** The pool *)

Lemma submitted_tracks rs : Forall2 (tracks net sku) rs (submitted net sku rs).
Proof.
  induction rs as [|r rs IH]; constructor; [|done].
  split; [done|by left].
Qed.

Lemma submitted_unsent rs :
  unsent sku rs (submitted net sku rs) = concat (map (requests_of sku) rs).
Proof.
  unfold unsent, submitted. induction rs as [|r rs IH]; [done|].
  cbn [map zip_with concat]. by rewrite IH.
Qed.

Lemma future_result_spec retailer f w :
  tracks net sku retailer f →
  future_result f w
  = (outcome_of net sku retailer, transmit (unsent_by sku retailer f) w).
Proof.
  intros [Hfn Hst]. unfold future_result, unsent_by.
  destruct Hst as [-> | ->].
  - by rewrite Hfn, search_retailer_spec.
  - by rewrite transmit_nil.
Qed.

(** Marking a pending future as done takes its requests out of the unsent
    ones. *)
Lemma unsent_insert_done rs : ∀ i fs f retailer o,
  fs !! i = Some f →
  state f = None →
  rs !! i = Some retailer →
  unsent sku rs fs
  ≡ₚ requests_of sku retailer
     ++ unsent sku rs (<[i := {| fn := fn f; state := Some o |}]> fs).
Proof.
  unfold unsent.
  induction rs as [|r0 rs IH]; intros i fs f retailer o Hf Hst Hr; [done|].
  destruct fs as [|f0 fs]; [done|]. destruct i as [|i]; cbn in *.
  - injection Hf as ->. injection Hr as ->.
    unfold unsent_by at 1 3. rewrite Hst. cbn. done.
  - rewrite (IH i fs f retailer o Hf Hst Hr).
    rewrite !app_assoc. f_equiv; [apply Permutation_app_comm|done].
Qed.

(** One step of a worker keeps the futures in line with their retailers,
    and what it sends is what leaves the unsent requests. *)
Lemma complete_spec rs i fs w :
  Forall2 (tracks net sku) rs fs →
  ∃ reqs,
    Forall2 (tracks net sku) rs (complete i (fs, w)).1
    ∧ (complete i (fs, w)).2 = transmit reqs w
    ∧ unsent sku rs fs ≡ₚ reqs ++ unsent sku rs (complete i (fs, w)).1.
Proof.
  intros Hfs. unfold complete. cbn [fst snd].
  destruct (fs !! i) as [f|] eqn:Hf; last first.
  { exists []. by rewrite transmit_nil. }
  destruct (state f) as [r|] eqn:Hst.
  { exists []. by rewrite transmit_nil. }
  destruct (Forall2_lookup_r _ _ _ _ _ Hfs Hf) as (retailer & Hr & Hfn & _).
  pose proof (unsent_insert_done rs i fs f retailer
                (outcome_of net sku retailer) Hf Hst Hr) as Hperm.
  rewrite Hfn in Hperm |- *. rewrite search_retailer_spec. cbn [fst snd].
  exists (requests_of sku retailer). split; [|done].
  rewrite <- (list_insert_id rs i retailer Hr).
  apply Forall2_insert; [done|]. split; [done|by right].
Qed.

Lemma run_workers_spec schedule rs : ∀ fs w,
  Forall2 (tracks net sku) rs fs →
  ∃ reqs,
    Forall2 (tracks net sku) rs (run_workers schedule (fs, w)).1
    ∧ (run_workers schedule (fs, w)).2 = transmit reqs w
    ∧ unsent sku rs fs
      ≡ₚ reqs ++ unsent sku rs (run_workers schedule (fs, w)).1.
Proof.
  unfold run_workers.
  induction schedule as [|i schedule IH]; intros fs w Hfs.
  { exists []. by rewrite transmit_nil. }
  cbn [foldl].
  destruct (complete_spec rs i fs w Hfs) as (reqs & Hfs' & Hw' & Hperm).
  destruct (complete i (fs, w)) as [fs' w'] eqn:Hstep. cbn [fst snd] in *.
  destruct (IH fs' w' Hfs') as (reqs' & Hfs'' & Hw'' & Hperm').
  exists (reqs ++ reqs'). split; [done|]. split.
  - by rewrite Hw'', Hw', transmit_transmit.
  - by rewrite Hperm, Hperm', app_assoc.
Qed.

Lemma shutdown_spec rs fs w :
  Forall2 (tracks net sku) rs fs →
  shutdown fs w = transmit (unsent sku rs fs) w.
Proof.
  unfold shutdown, unsent. intros Hfs. revert w.
  induction Hfs as [|r f rs fs Hf Hfs IH]; intros w; cbn.
  - by rewrite transmit_nil.
  - rewrite (future_result_spec r f w Hf). cbn.
    by rewrite IH, transmit_transmit.
Qed.

Lemma harvest_spec rs fs results w :
  Forall2 (tracks net sku) rs fs →
  harvest fs results w
  = (gather (map (outcome_of net sku) rs) results,
     transmit (unsent sku rs fs) w).
Proof.
  intros Hfs. revert results w.
  induction Hfs as [|r f rs fs Hf Hfs IH]; intros results w.
  - cbn. by rewrite transmit_nil.
  - cbn [harvest map gather]. rewrite (future_result_spec r f w Hf).
    unfold unsent. cbn [zip_with concat]. fold (unsent sku rs fs).
    rewrite <- transmit_transmit.
    destruct (outcome_of net sku r) as [[result|]|e]; [by rewrite IH..|].
    by rewrite (shutdown_spec rs).
Qed.

(** Whatever the schedule, the search gathers the outcomes of the probes
    in submission order, and each probe's requests went out once. *)
Lemma search_each_spec schedule rs w :
  ∃ reqs,
    search_each net schedule rs sku w
    = (gather (map (outcome_of net sku) rs) [], transmit reqs w)
    ∧ reqs ≡ₚ concat (map (requests_of sku) rs).
Proof.
  unfold search_each. fold (submitted net sku rs).
  destruct (run_workers_spec schedule rs _ w (submitted_tracks rs))
    as (reqs & Hfs & Hw & Hperm).
  destruct (run_workers schedule (submitted net sku rs, w)) as [fs w'].
  cbn [fst snd] in *. subst w'.
  exists (reqs ++ unsent sku rs fs). split.
  - by rewrite (harvest_spec rs), transmit_transmit.
  - by rewrite <- Hperm, submitted_unsent.
Qed.

Lemma gather_configured rs : ∀ results,
  Forall (configured sku) rs →
  gather (map (outcome_of net sku) rs) results
  = Ok (results ++ omap (listing net sku) rs).
Proof.
  induction rs as [|retailer rs IH]; intros results Hrs; cbn.
  { by rewrite app_nil_r. }
  apply Forall_cons in Hrs as [[url Hurl] Hrs].
  unfold listing. destruct (outcome_of net sku retailer) as [[r|]|e] eqn:Hout.
  - rewrite IH by done. by rewrite <- app_assoc.
  - by rewrite IH.
  - unfold outcome_of in Hout. rewrite Hurl in Hout.
    destruct (net url) as [code|?]; [destruct (code =? 200)%Z|]; done.
Qed.

(** With configured targets no call raises: the result list is the list
    of listings, in submission order, and every target was requested
    once. *)
Lemma search_each_configured schedule rs w :
  Forall (configured sku) rs →
  ∃ reqs,
    search_each net schedule rs sku w
    = (Ok (omap (listing net sku) rs), transmit reqs w)
    ∧ reqs ≡ₚ concat (map (requests_of sku) rs).
Proof.
  intros Hrs.
  destruct (search_each_spec schedule rs w) as (reqs & Hrun & Hperm).
  exists reqs. by rewrite Hrun, gather_configured.
Qed.

Lemma search_all_retailers_spec schedule w :
  ∃ reqs,
    search_all_retailers net schedule sku w
    = (Ok (omap (listing net sku) ["Amazon"; "Walmart"; "Best Buy"]),
       transmit reqs w)
    ∧ reqs ≡ₚ [amazon_url sku; walmart_url sku; bestbuy_url sku].
Proof.
  apply (search_each_configured schedule _ w fixed_retailers_configured).
Qed.

End Search.

(** C1: when every request meets a transport failure, a search over K
    configured targets returns exactly K results, one per target and in the
    order the targets were submitted, all with status Error, whatever the
    order in which the workers finish.  [search_all_retailers] is the case
    of the three targets Amazon, Walmart, Best Buy. *)
Theorem all_fail_all_error net schedule sku targets w :
  all_fail net →
  Forall (configured sku) targets →
  (∃ results w',
     search_each net schedule targets sku w = (Ok results, w')
     ∧ length results = length targets
     ∧ map Retailer results = targets
     ∧ Forall (λ r, Status r = Error) results)
  ∧ ∃ results w',
      search_all_retailers net schedule sku w = (Ok results, w')
      ∧ length results = 3
      ∧ map Retailer results = ["Amazon"; "Walmart"; "Best Buy"]
      ∧ Forall (λ r, Status r = Error) results.
Proof.
  intros Hnet Htargets.
  assert (Hgen : ∀ rs, Forall (configured sku) rs →
     ∃ results w',
       search_each net schedule rs sku w = (Ok results, w')
       ∧ length results = length rs
       ∧ map Retailer results = rs
       ∧ Forall (λ r, Status r = Error) results).
  { intros rs Hrs.
    destruct (search_each_configured net sku schedule rs w Hrs)
      as (reqs & Hrun & _).
    destruct (omap_listing_all_fail net sku rs Hnet Hrs) as [Hr Hs].
    eexists _, _. split; [exact Hrun|]. split; [|done].
    by rewrite <- Hr at 2; rewrite length_map. }
  split; [by apply Hgen|].
  apply (Hgen _ (fixed_retailers_configured sku)).
Qed.

Lemma all_fail_all_error_witness :
  all_fail unreachable
  ∧ Forall (configured "W1") ["Best Buy"; "Amazon"]
  ∧ (∃ results w',
       search_each unreachable [1; 0] ["Best Buy"; "Amazon"] "W1" init_session
       = (Ok results, w')
       ∧ length results = 2
       ∧ map Retailer results = ["Best Buy"; "Amazon"]
       ∧ Forall (λ r, Status r = Error) results)
  ∧ ∃ results w',
      search_all_retailers unreachable [1; 0] "W1" init_session
      = (Ok results, w')
      ∧ length results = 3
      ∧ map Retailer results = ["Amazon"; "Walmart"; "Best Buy"]
      ∧ Forall (λ r, Status r = Error) results.
Proof.
  assert (Hnet : all_fail unreachable) by (intros url; by exists Timeout).
  assert (Hcfg : Forall (configured "W1") ["Best Buy"; "Amazon"])
    by (repeat constructor; by eexists).
  split; [exact Hnet|]. split; [exact Hcfg|].
  exact (all_fail_all_error unreachable [1; 0] "W1" ["Best Buy"; "Amazon"]
           init_session Hnet Hcfg).
Defined.

(** C2 as stated fails: 204 is a success-class status code, yet the probe
    returns [None] and the target is left out of the results. *)
Lemma success_class_204_omitted :
  let net : network := λ _, Response 204 in
  success_class 204 = true
  ∧ (search_retailer net "Amazon" "W1" init_session).1 = Ok None
  ∧ (search_retailer net "Amazon" "W1" init_session).1
    ≠ Ok (Some {| Retailer := "Amazon"; URL := amazon_url "W1";
                  Status := Available |})
  ∧ (search_all_retailers net [0; 1; 2] "W1" init_session).1 = Ok [].
Proof. cbn zeta. split; [|split; [|split]]; done. Qed.

(** C2, amended: for a configured target whose request is answered, status
    code 200 yields the result with status Available, which also appears
    in the result list of [search_all_retailers]; every other status code
    yields [None], and the target then has no entry in that list. *)
Theorem status_200_available_else_omitted net schedule sku retailer url code w :
  retailers sku !! retailer = Some url →
  net url = Response code →
  ∃ results w',
    search_all_retailers net schedule sku w = (Ok results, w')
    ∧ if decide (code = 200%Z) then
        (search_retailer net retailer sku w).1
        = Ok (Some {| Retailer := retailer; URL := url; Status := Available |})
        ∧ {| Retailer := retailer; URL := url; Status := Available |} ∈ results
      else
        (search_retailer net retailer sku w).1 = Ok None
        ∧ ∀ r, r ∈ results → Retailer r ≠ retailer.
Proof.
  intros Hurl Hnet.
  pose proof (configured_fixed sku retailer (mk_is_Some _ _ Hurl)) as Hfixed.
  destruct (search_all_retailers_spec net sku schedule w) as (reqs & Hrun & _).
  eexists _, _. split; [exact Hrun|].
  rewrite search_retailer_spec. cbn [fst].
  assert (Hout : outcome_of net sku retailer
                 = if (code =? 200)%Z then
                     Ok (Some {| Retailer := retailer; URL := url;
                                 Status := Available |})
                   else Ok None).
  { unfold outcome_of. by rewrite Hurl, Hnet. }
  case_decide as Hcode.
  - subst code. cbn in Hout. split; [done|].
    apply list_elem_of_omap. exists retailer. split; [done|].
    unfold listing. by rewrite Hout.
  - apply Z.eqb_neq in Hcode. rewrite Hcode in Hout. split; [done|].
    intros r Hr Heq. apply list_elem_of_omap in Hr as (retailer' & _ & Hl).
    pose proof (listing_Retailer _ _ _ _ Hl) as Hname.
    rewrite Heq in Hname. subst retailer'.
    unfold listing in Hl. by rewrite Hout in Hl.
Qed.

Lemma status_200_available_else_omitted_witness :
  retailers "W1" !! "Walmart" = Some (walmart_url "W1")
  ∧ walmart_404 (walmart_url "W1") = Response 404
  ∧ ∃ results w',
      search_all_retailers walmart_404 [1; 2; 0] "W1" init_session
      = (Ok results, w')
      ∧ (search_retailer walmart_404 "Walmart" "W1" init_session).1 = Ok None
      ∧ ∀ r, r ∈ results → Retailer r ≠ "Walmart".
Proof.
  split; [reflexivity|]. split; [reflexivity|].
  exact (status_200_available_else_omitted walmart_404 [1; 2; 0] "W1"
           "Walmart" (walmart_url "W1") 404 init_session eq_refl eq_refl).
Defined.

(** C3 as stated fails: Amazon and Best Buy respond successfully with the
    success-class status 204 and the Walmart request times out, yet the
    search returns a single entry, the Error of Walmart, and not the three
    entries Available, Error, Available: line 60 only accepts 200. *)
Lemma middle_timeout_204_single_error :
  success_class 204 = true
  ∧ walmart_times_out_204 (amazon_url "W1") = Response 204
  ∧ walmart_times_out_204 (walmart_url "W1") = Failure Timeout
  ∧ walmart_times_out_204 (bestbuy_url "W1") = Response 204
  ∧ (search_all_retailers walmart_times_out_204 [0; 1; 2] "W1" init_session).1
    = Ok [ {| Retailer := "Walmart"; URL := walmart_url "W1";
              Status := Error |} ]
  ∧ ¬ ∃ results,
        (search_all_retailers walmart_times_out_204 [0; 1; 2] "W1"
           init_session).1 = Ok results
        ∧ length results = 3
        ∧ map Status results = [Available; Error; Available].
Proof.
  repeat (split; [reflexivity|]).
  intros (results & Hrun & Hlen & _).
  vm_compute in Hrun. injection Hrun as <-. discriminate Hlen.
Qed.

(** C3, amended: when Amazon and Best Buy answer with status code 200 and
    the Walmart request times out, the search still returns three results,
    Available, Error, Available, in that order, whatever the order in
    which the workers finish. *)
Theorem middle_timeout_keeps_neighbours net schedule sku w :
  net (amazon_url sku) = Response 200 →
  net (walmart_url sku) = Failure Timeout →
  net (bestbuy_url sku) = Response 200 →
  ∃ results w',
    search_all_retailers net schedule sku w = (Ok results, w')
    ∧ results =
        [ {| Retailer := "Amazon"; URL := amazon_url sku; Status := Available |};
          {| Retailer := "Walmart"; URL := walmart_url sku; Status := Error |};
          {| Retailer := "Best Buy"; URL := bestbuy_url sku; Status := Available |} ]
    ∧ length results = 3
    ∧ map Status results = [Available; Error; Available].
Proof.
  intros Ha Hw Hb.
  destruct (search_all_retailers_spec net sku schedule w) as (reqs & Hrun & _).
  eexists _, _. split; [exact Hrun|].
  cbn [omap list_omap]. unfold listing, outcome_of.
  rewrite retailers_Amazon, retailers_Walmart, retailers_Best_Buy.
  rewrite Ha, Hw, Hb. cbn. done.
Qed.

Lemma middle_timeout_keeps_neighbours_witness :
  walmart_times_out (amazon_url "W1") = Response 200
  ∧ walmart_times_out (walmart_url "W1") = Failure Timeout
  ∧ walmart_times_out (bestbuy_url "W1") = Response 200
  ∧ ∃ results w',
      search_all_retailers walmart_times_out [2; 1; 0] "W1" init_session
      = (Ok results, w')
      ∧ results =
          [ {| Retailer := "Amazon"; URL := amazon_url "W1"; Status := Available |};
            {| Retailer := "Walmart"; URL := walmart_url "W1"; Status := Error |};
            {| Retailer := "Best Buy"; URL := bestbuy_url "W1"; Status := Available |} ]
      ∧ length results = 3
      ∧ map Status results = [Available; Error; Available].
Proof.
  split; [reflexivity|]. split; [reflexivity|]. split; [reflexivity|].
  exact (middle_timeout_keeps_neighbours walmart_times_out [2; 1; 0] "W1"
           init_session eq_refl eq_refl eq_refl).
Defined.

(** *** The "Search Prices" handler *)

Lemma quiet_ret {A} (a : A) : quiet (ret a).
Proof. done. Qed.

Lemma quiet_draw e : quiet (draw e).
Proof. done. Qed.

Lemma quiet_bind {A B} (c : M A) (k : A → M B) :
  quiet c → (∀ a, quiet (k a)) → quiet (bind c k).
Proof.
  intros Hc Hk w. unfold bind. specialize (Hc w).
  destruct (c w) as [[a|e] w1]; cbn in *; [|done].
  by rewrite Hk.
Qed.

Lemma quiet_for_each {A} (xs : list A) (body : A → M unit) :
  (∀ x, quiet (body x)) → quiet (for_each xs body).
Proof.
  intros Hbody. induction xs as [|x xs IH]; cbn; [apply quiet_ret|].
  by apply quiet_bind.
Qed.

Create HintDb quiet.
#[local] Hint Resolve quiet_ret quiet_draw quiet_bind quiet_for_each : quiet.

(** C4: the handler never reads the "Select Retailers" value.  Two runs
    that differ only in the selection end in the same result and the same
    world, and for a non-empty SKU the requests sent are those of Amazon,
    Walmart and Best Buy, once each (none for the empty SKU). *)
Theorem search_ignores_selection net schedule sku_input selection selection' w :
  search_prices net schedule sku_input selection w
  = search_prices net schedule sku_input selection' w
  ∧ ∃ reqs,
      wire (search_prices net schedule sku_input selection w).2 = wire w ++ reqs
      ∧ reqs ≡ₚ
          if truthy sku_input then
            [amazon_url sku_input; walmart_url sku_input; bestbuy_url sku_input]
          else [].
Proof.
  split; [done|]. unfold search_prices.
  destruct (truthy sku_input).
  - destruct (search_all_retailers_spec net sku_input schedule w)
      as (reqs & Hrun & Hperm).
    exists reqs. split; [|done].
    unfold bind at 1. rewrite Hrun.
    destruct (omap _ _) as [|r rs].
    + by rewrite quiet_draw.
    + rewrite (quiet_bind _ _); [done|auto with quiet|].
      intros _. repeat (apply quiet_bind; [auto with quiet|intros ?]);
        auto 10 with quiet.
  - exists []. by rewrite quiet_draw, app_nil_r.
Qed.

(** C5: with an empty SKU the handler sends no request and runs no
    search; all it does is draw the error "Please enter a SKU number". *)
Theorem empty_sku_rejected net schedule selection w :
  let run := search_prices net schedule "" selection w in
  run.1 = Ok tt
  ∧ wire run.2 = wire w
  ∧ screen run.2 = screen w ++ [StError "Please enter a SKU number"]
  ∧ products run.2 = products w
  ∧ search_results run.2 = search_results w.
Proof. done. Qed.

(** * Further properties of the search *)

Section MoreSearch.

Variable net : network.
Variable sku : string.

Implicit Types (w : world) (retailer : string) (rs : list string)
  (results : list probe_result).

Lemma unknown_retailer_lookup retailer :
  retailer ∉ ["Amazon"; "Walmart"; "Best Buy"] →
  retailers sku !! retailer = None.
Proof.
  intros Hnot. destruct (retailers sku !! retailer) as [url|] eqn:Hurl; [|done].
  destruct Hnot. apply (configured_fixed sku). by exists url.
Qed.

Lemma listing_shape retailer r :
  listing net sku retailer = Some r →
  Retailer r = retailer
  ∧ retailers sku !! Retailer r = Some (URL r)
  ∧ (Status r = Available ∨ Status r = Error).
Proof.
  unfold listing, outcome_of.
  destruct (retailers sku !! retailer) as [url|] eqn:Hurl; [|done].
  destruct (net url) as [code|e]; [destruct (code =? 200)%Z|];
    intros [= <-]; cbn; auto.
Qed.

Lemma omap_listing_sublist rs :
  map Retailer (omap (listing net sku) rs) `sublist_of` rs.
Proof.
  induction rs as [|retailer rs IH]; [done|]. cbn.
  destruct (listing net sku retailer) as [r|] eqn:Hr; cbn.
  - apply listing_shape in Hr as [-> _]. by apply sublist_skip.
  - by apply sublist_cons.
Qed.

Lemma omap_listing_shape rs :
  Forall (λ r, retailers sku !! Retailer r = Some (URL r)
               ∧ (Status r = Available ∨ Status r = Error))
    (omap (listing net sku) rs).
Proof.
  induction rs as [|retailer rs IH]; [done|]. cbn.
  destruct (listing net sku retailer) as [r|] eqn:Hr; [|done].
  constructor; [|done]. by apply listing_shape in Hr as (_ & ? & ?).
Qed.

Lemma listing_all_refuse retailer :
  all_refuse net → listing net sku retailer = None.
Proof.
  intros Hnet. unfold listing, outcome_of.
  destruct (retailers sku !! retailer) as [url|]; [|done].
  destruct (Hnet url) as (code & -> & Hcode).
  apply Z.eqb_neq in Hcode. by rewrite Hcode.
Qed.

End MoreSearch.

(** X1: a retailer name other than the three of the dict makes
    [search_retailer] raise [KeyError]: the lookup fails inside the [try],
    the handler repeats it, and the exception leaves the function.  No
    request is sent. *)
Theorem search_retailer_unknown_raises net retailer sku w :
  retailer ∉ ["Amazon"; "Walmart"; "Best Buy"] →
  search_retailer net retailer sku w = (Raise (KeyError retailer), w).
Proof.
  intros Hnot. rewrite search_retailer_spec.
  unfold outcome_of, requests_of.
  rewrite (unknown_retailer_lookup sku retailer Hnot).
  by rewrite transmit_nil.
Qed.

Lemma search_retailer_unknown_raises_witness :
  ("Target" ∉ ["Amazon"; "Walmart"; "Best Buy"])
  ∧ search_retailer walmart_times_out "Target" "W1" init_session
    = (Raise (KeyError "Target"), init_session).
Proof.
  assert (Hnot : "Target" ∉ ["Amazon"; "Walmart"; "Best Buy"])
    by (apply (bool_decide_unpack _); vm_compute; exact I).
  split; [exact Hnot|].
  exact (search_retailer_unknown_raises walmart_times_out "Target" "W1"
           init_session Hnot).
Defined.



(** X3: whatever the network and the order in which the workers finish,
    [search_all_retailers] returns normally, having sent the three search
    requests once each and nothing else.  Its results name retailers in
    the order Amazon, Walmart, Best Buy without repetition (so there are
    at most three), each with the URL of its retailer and one of the two
    status strings.  The session state and the screen are untouched. *)
Theorem search_all_retailers_shape net schedule sku w :
  ∃ results w',
    search_all_retailers net schedule sku w = (Ok results, w')
    ∧ map Retailer results `sublist_of` ["Amazon"; "Walmart"; "Best Buy"]
    ∧ (length results ≤ 3)%nat
    ∧ Forall (λ r, retailers sku !! Retailer r = Some (URL r)
                   ∧ (Status r = Available ∨ Status r = Error)) results
    ∧ (∃ reqs, wire w' = wire w ++ reqs ∧ reqs ≡ₚ search_urls sku)
    ∧ products w' = products w
    ∧ search_results w' = search_results w
    ∧ screen w' = screen w.
Proof.
  destruct (search_all_retailers_spec net sku schedule w)
    as (reqs & Hrun & Hperm).
  eexists _, _. split; [exact Hrun|].
  pose proof (omap_listing_sublist net sku ["Amazon"; "Walmart"; "Best Buy"])
    as Hsub.
  split; [exact Hsub|]. split.
  { apply sublist_length in Hsub. by rewrite length_map in Hsub. }
  split; [apply omap_listing_shape|].
  split; [by exists reqs|done].
Qed.

(** X4: the results of [search_all_retailers] do not depend on the order
    in which the workers finish; two interleavings differ at most in the
    order of the three requests on the wire. *)
Theorem search_all_retailers_any_schedule net schedule schedule' sku w :
  (search_all_retailers net schedule sku w).1
  = (search_all_retailers net schedule' sku w).1
  ∧ wire (search_all_retailers net schedule sku w).2
    ≡ₚ wire (search_all_retailers net schedule' sku w).2.
Proof.
  destruct (search_all_retailers_spec net sku schedule w)
    as (reqs & -> & Hperm).
  destruct (search_all_retailers_spec net sku schedule' w)
    as (reqs' & -> & Hperm').
  split; [done|]. cbn. by rewrite Hperm, Hperm'.
Qed.

(** ** What the "Search Prices" handler draws *)

Lemma for_each_draw {A} (lines : A → list element) (body : A → M unit) xs :
  (∀ x w, body x w =
     (Ok tt, {| products := products w; search_results := search_results w;
                screen := screen w ++ lines x; wire := wire w |})) →
  ∀ w, for_each xs body w =
     (Ok tt, {| products := products w; search_results := search_results w;
                screen := screen w ++ concat (map lines xs); wire := wire w |}).
Proof.
  intros Hbody. induction xs as [|x xs IH]; intros w; cbn.
  - destruct w. unfold ret. cbn. by rewrite app_nil_r.
  - unfold bind. rewrite Hbody, IH. cbn. by rewrite app_assoc.
Qed.

Lemma search_prices_spec net schedule sku_input selection w :
  truthy sku_input = true →
  ∃ reqs,
    search_prices net schedule sku_input selection w =
      (Ok tt,
       {| products := products w;
          search_results := search_results w;
          screen := screen w
            ++ report sku_input
                 (omap (listing net sku_input) ["Amazon"; "Walmart"; "Best Buy"]);
          wire := wire w ++ reqs |})
    ∧ reqs ≡ₚ search_urls sku_input.
Proof.
  intros Hsku. unfold search_prices. rewrite Hsku.
  destruct (search_all_retailers_spec net sku_input schedule w)
    as (reqs & Hrun & Hperm).
  exists reqs. split; [|done].
  unfold bind at 1. rewrite Hrun.
  destruct (omap _ _) as [|r rs]; [done|].
  unfold bind, draw.
  rewrite (for_each_draw (λ result,
    [StWrite ("**" +:+ Retailer result +:+ "** - " +:+ Status result);
     StMarkdown ("[View Product](" +:+ URL result +:+ ")");
     StMarkdown "---"])).
  - cbn. by rewrite <- !app_assoc.
  - intros x w0. cbn. by rewrite <- !app_assoc.
Qed.

(** X5: when every request meets a transport failure, the handler still
    draws the success banner "Found product listings", followed by one
    "Error checking availability" line and link per retailer and the
    closing note: the error entries make the result list non-empty. *)
Theorem search_prices_all_fail net schedule sku_input selection w :
  all_fail net →
  truthy sku_input = true →
  screen (search_prices net schedule sku_input selection w).2 =
    screen w ++
    [ StSuccess ("Found product listings for SKU: " +:+ sku_input);
      StMarkdown "### Available at:";
      StWrite "**Amazon** - Error checking availability";
      StMarkdown ("[View Product](" +:+ amazon_url sku_input +:+ ")");
      StMarkdown "---";
      StWrite "**Walmart** - Error checking availability";
      StMarkdown ("[View Product](" +:+ walmart_url sku_input +:+ ")");
      StMarkdown "---";
      StWrite "**Best Buy** - Error checking availability";
      StMarkdown ("[View Product](" +:+ bestbuy_url sku_input +:+ ")");
      StMarkdown "---";
      StInfo "Note: Due to retailer restrictions, exact prices are not shown. Click the links to view current prices on each website." ].
Proof.
  intros Hnet Hsku.
  destruct (search_prices_spec net schedule sku_input selection w Hsku)
    as (reqs & -> & _).
  cbn [snd screen omap list_omap].
  rewrite (listing_all_fail net sku_input "Amazon" _ Hnet (retailers_Amazon _)).
  rewrite (listing_all_fail net sku_input "Walmart" _ Hnet (retailers_Walmart _)).
  rewrite (listing_all_fail net sku_input "Best Buy" _ Hnet
             (retailers_Best_Buy _)).
  reflexivity.
Qed.

Lemma search_prices_all_fail_witness :
  all_fail unreachable
  ∧ truthy "W1" = true
  ∧ screen (search_prices unreachable [1] "W1" [] init_session).2 =
    screen init_session ++
    [ StSuccess ("Found product listings for SKU: " +:+ "W1");
      StMarkdown "### Available at:";
      StWrite "**Amazon** - Error checking availability";
      StMarkdown ("[View Product](" +:+ amazon_url "W1" +:+ ")");
      StMarkdown "---";
      StWrite "**Walmart** - Error checking availability";
      StMarkdown ("[View Product](" +:+ walmart_url "W1" +:+ ")");
      StMarkdown "---";
      StWrite "**Best Buy** - Error checking availability";
      StMarkdown ("[View Product](" +:+ bestbuy_url "W1" +:+ ")");
      StMarkdown "---";
      StInfo "Note: Due to retailer restrictions, exact prices are not shown. Click the links to view current prices on each website." ].
Proof.
  assert (Hnet : all_fail unreachable) by (intros url; by exists Timeout).
  split; [exact Hnet|]. split; [reflexivity|].
  exact (search_prices_all_fail unreachable [1] "W1" [] init_session Hnet
           eq_refl).
Defined.

(** X6: when every request is answered with a status other than 200, no
    probe yields a result and the handler draws exactly one element, the
    warning "No results found for this SKU". *)
Theorem search_prices_all_refuse net schedule sku_input selection w :
  all_refuse net →
  truthy sku_input = true →
  screen (search_prices net schedule sku_input selection w).2 =
    screen w
    ++ [StWarning "No results found for this SKU. Try another SKU number."].
Proof.
  intros Hnet Hsku.
  destruct (search_prices_spec net schedule sku_input selection w Hsku)
    as (reqs & -> & _).
  cbn [snd screen omap list_omap].
  by rewrite !(listing_all_refuse net sku_input _ Hnet).
Qed.

Lemma search_prices_all_refuse_witness :
  all_refuse forbidden
  ∧ truthy "W1" = true
  ∧ screen (search_prices forbidden [0; 2] "W1" ["Amazon"] init_session).2 =
      screen init_session
      ++ [StWarning "No results found for this SKU. Try another SKU number."].
Proof.
  assert (Hnet : all_refuse forbidden)
    by (intros url; by exists 403%Z).
  split; [exact Hnet|]. split; [reflexivity|].
  exact (search_prices_all_refuse forbidden [0; 2] "W1" ["Amazon"]
           init_session Hnet eq_refl).
Defined.

(** X7: the handler never raises and never touches the session state,
    whatever the SKU, the network and the schedule; it draws at least one
    and at most twelve elements. *)
Theorem search_prices_frame net schedule sku_input selection w :
  let run := search_prices net schedule sku_input selection w in
  run.1 = Ok tt
  ∧ products run.2 = products w
  ∧ search_results run.2 = search_results w
  ∧ ∃ drawn, screen run.2 = screen w ++ drawn
             ∧ (1 ≤ length drawn ≤ 12)%nat.
Proof.
  cbn zeta. destruct (truthy sku_input) eqn:Hsku.
  - destruct (search_prices_spec net schedule sku_input selection w Hsku)
      as (reqs & -> & _).
    cbn [fst snd products search_results screen].
    split; [done|]. split; [done|]. split; [done|].
    eexists. split; [done|].
    pose proof (omap_listing_sublist net sku_input
                  ["Amazon"; "Walmart"; "Best Buy"]) as Hsub.
    apply sublist_length in Hsub. rewrite length_map in Hsub.
    change (length ["Amazon"; "Walmart"; "Best Buy"]) with 3 in Hsub.
    destruct (omap _ _) as [|r1 [|r2 [|r3 [|r4 rs]]]]; cbn in *; lia.
  - unfold search_prices. rewrite Hsku. cbn.
    repeat (split; [done|]). eexists. split; [done|]. cbn. lia.
Qed.

(** * Further properties of the ledger, the export and tab 1 *)

Lemma press_refused c w : ¬ accepted c → press c w = (Ok tt, w).
Proof.
  intros Hc. apply add_product_refused.
  unfold accepted in Hc. by apply not_true_is_false.
Qed.

Lemma len_cons {A} (x : A) l : len (x :: l) = (1 + len l)%Z.
Proof. unfold len. cbn [length]. lia. Qed.

(** X9: Competitive Prices lies between 0 and Total Products, and Need
    Review is the non-negative rest. *)
Theorem metrics_bounds df :
  (0 ≤ competitive_prices df ≤ total_products df)%Z
  ∧ (0 ≤ need_review df ≤ total_products df)%Z
  ∧ (competitive_prices df + need_review df = total_products df)%Z
  ∧ total_products df = Z.of_nat (length df).
Proof.
  unfold need_review, competitive_prices, total_products, len.
  pose proof (List.filter_length_le
                (λ r, PrimFloat.leb (Price_Difference r) 0) df).
  lia.
Qed.

(** For a float that is not NaN, [x > 0] is the negation of [x <= 0]. *)
Lemma ltb_zero_not_leb (x : float) :
  ¬ is_nan x → PrimFloat.ltb 0 x = negb (PrimFloat.leb x 0).
Proof.
  unfold is_nan. intros Hx. rewrite ltb_spec, leb_spec.
  change (Prim2SF 0) with (S754_zero false).
  destruct (Prim2SF x) as [s|s| |s m e]; try done; by destruct s.
Qed.

Lemma highlight_not_nan (x : float) :
  ¬ is_nan x →
  highlight_price_difference (Number x)
  = if PrimFloat.leb x 0 then "color: green" else "color: red".
Proof.
  intros Hx. unfold highlight_price_difference.
  rewrite (ltb_zero_not_leb x Hx). by destruct (PrimFloat.leb x 0).
Qed.

(** X10: as long as no Price Difference is NaN, the table and the
    analysis agree: each row is coloured red or green, the red rows are
    as many as Need Review says and the green rows as many as Competitive
    Prices says. *)
Theorem need_review_counts_red df :
  Forall (λ r, ¬ is_nan (Price_Difference r)) df →
  let styles := applymap_price_difference highlight_price_difference df in
  length styles = length df
  ∧ Forall (λ style, style = "color: red" ∨ style = "color: green") styles
  ∧ len (filter (λ style, style = "color: red") styles) = need_review df
  ∧ len (filter (λ style, style = "color: green") styles)
    = competitive_prices df.
Proof.
  intros Hdf. cbn zeta. unfold applymap_price_difference.
  split; [by rewrite length_map|].
  unfold need_review, total_products, competitive_prices.
  induction Hdf as [|r df Hr _ (IHc & IHr & IHg)]; [done|].
  rewrite map_cons, (highlight_not_nan _ Hr). cbn [List.filter].
  destruct (PrimFloat.leb (Price_Difference r) 0).
  - split; [constructor; auto|].
    rewrite filter_cons_False by done. rewrite filter_cons_True by done.
    rewrite !len_cons, IHg. split; [|done]. rewrite IHr. lia.
  - split; [constructor; auto|].
    rewrite filter_cons_True by done. rewrite filter_cons_False by done.
    rewrite !len_cons, IHr. split; [lia|done].
Qed.

Lemma need_review_counts_red_witness :
  let df := map row_of two_presses in
  let styles := applymap_price_difference highlight_price_difference df in
  Forall (λ r, ¬ is_nan (Price_Difference r)) df
  ∧ length styles = length df
  ∧ Forall (λ style, style = "color: red" ∨ style = "color: green") styles
  ∧ len (filter (λ style, style = "color: red") styles) = need_review df
  ∧ len (filter (λ style, style = "color: green") styles)
    = competitive_prices df.
Proof.
  intros df styles.
  assert (Hdf : Forall (λ r, ¬ is_nan (Price_Difference r)) df)
    by (repeat constructor; intros Hnan; vm_compute in Hnan; discriminate).
  split; [exact Hdf|].
  exact (need_review_counts_red df Hdf).
Defined.

(** * Runs and sessions *)

Section Runs.

Implicit Types (r : run) (w : world) (runs : list run).

Lemma adds_accepted r :
  adds r = true ↔ add_pressed r = true ∧ accepted (sidebar r).
Proof.
  unfold adds, accepted. rewrite <- andb_assoc, andb_true_iff. done.
Qed.

Lemma row_of_well_formed c : accepted c → well_formed (row_of c).
Proof.
  unfold accepted. intros [Hn Hc]%andb_true_iff.
  split; [done|]. split; cbn; intros Heq.
  - by rewrite Heq in Hn.
  - by rewrite Heq in Hc.
Qed.

Lemma tab2_section_spec r w :
  ∃ drawn reqs,
    tab2_section r w =
      (Ok tt, {| products := products w; search_results := search_results w;
                 screen := screen w ++ drawn; wire := wire w ++ reqs |})
    ∧ reqs ≡ₚ (if searches r then search_urls (sku_input r) else []).
Proof.
  unfold tab2_section, searches.
  destruct (search_pressed r); cbn [andb].
  - destruct (truthy (sku_input r)) eqn:Hsku.
    + destruct (search_prices_spec (net_of_run r) (schedule_of_run r)
                  (sku_input r) (retailers_to_search r) w Hsku)
        as (reqs & -> & Hperm).
      by eexists _, reqs.
    + unfold search_prices. rewrite Hsku.
      exists [StError "Please enter a SKU number"], []. split; [|done].
      unfold draw. by rewrite app_nil_r.
  - exists [], []. split; [|done]. destruct w. unfold ret. cbn.
    by rewrite !app_nil_r.
Qed.

Lemma sidebar_section_spec r w :
  ∃ drawn,
    sidebar_section r w =
      (Ok tt,
       {| products := products w
            ++ (if adds r then [row_of (sidebar r)] else []);
          search_results := search_results w;
          screen := screen w ++ drawn; wire := wire w |}).
Proof.
  unfold sidebar_section.
  destruct (adds r) eqn:Hadds.
  - apply adds_accepted in Hadds as [-> Hacc].
    rewrite (press_accepted _ w Hacc). by eexists.
  - exists []. destruct w. cbn. rewrite !app_nil_r.
    destruct (add_pressed r) eqn:Hpressed; [|done].
    rewrite press_refused; [done|].
    intros Hacc. assert (adds r = true) by by apply adds_accepted.
    congruence.
Qed.

Lemma export_section_spec s w :
  export_section s w =
    (Ok tt,
     {| products := products w; search_results := search_results w;
        screen := screen w
          ++ match products w with
             | [] => []
             | _ :: _ =>
                 [StDownloadButton "Export Data to CSV" (to_csv (products w))
                    ("price_comparison_" +:+ s +:+ ".csv") "text/csv"]
             end;
        wire := wire w |}).
Proof.
  unfold export_section, bind, get_products. destruct w as [df sr sc wi].
  cbn. destruct df; cbn; [|done]. by rewrite app_nil_r.
Qed.

(** One run: the ledger gains the row of an accepted add, the wire the
    requests of a search, and the export button shows the ledger after
    the add. *)
Lemma handlers_spec r w :
  ∃ drawn reqs,
    handlers r w =
      (Ok tt,
       {| products := products w
            ++ (if adds r then [row_of (sidebar r)] else []);
          search_results := search_results w;
          screen := screen w ++ drawn
            ++ match products w
                     ++ (if adds r then [row_of (sidebar r)] else []) with
               | [] => []
               | _ :: _ =>
                   [StDownloadButton "Export Data to CSV"
                      (to_csv (products w
                         ++ (if adds r then [row_of (sidebar r)] else [])))
                      ("price_comparison_" +:+ stamp r +:+ ".csv") "text/csv"]
               end;
          wire := wire w ++ reqs |})
    ∧ reqs ≡ₚ (if searches r then search_urls (sku_input r) else []).
Proof.
  destruct (tab2_section_spec r w) as (drawn1 & reqs & H1 & Hperm).
  unfold handlers, bind. rewrite H1.
  match goal with
  | |- context [sidebar_section r ?w1] =>
      destruct (sidebar_section_spec r w1) as (drawn2 & H2); rewrite H2
  end.
  rewrite export_section_spec. cbn [products search_results screen wire].
  exists (drawn1 ++ drawn2), reqs. split; [|done].
  by rewrite <- !app_assoc.
Qed.

End Runs.

Lemma session_cons r runs w :
  session (r :: runs) w = session runs (handlers r w).2.
Proof. done. Qed.

(** A session: the ledger gains the rows of the accepted adds in run
    order, the wire the requests of the searches. *)
Lemma session_spec runs : ∀ w,
  ∃ drawn reqs,
    session runs w =
      {| products := products w
           ++ map (λ r, row_of (sidebar r)) (filter (λ r, adds r = true) runs);
         search_results := search_results w;
         screen := screen w ++ drawn;
         wire := wire w ++ reqs |}
    ∧ reqs ≡ₚ concat (map (λ r, search_urls (sku_input r))
                         (filter (λ r, searches r = true) runs)).
Proof.
  induction runs as [|r runs IH]; intros w.
  { exists [], []. split; [|done]. destruct w. cbn. by rewrite !app_nil_r. }
  rewrite session_cons.
  destruct (handlers_spec r w) as (drawn1 & reqs1 & -> & Hperm1).
  cbn [snd].
  match goal with
  | |- context [session runs ?w1] =>
      destruct (IH w1) as (drawn2 & reqs2 & -> & Hperm2)
  end.
  cbn [products search_results screen wire].
  eexists _, (reqs1 ++ reqs2). split.
  - f_equal; [|by rewrite <- !app_assoc|by rewrite <- app_assoc].
    rewrite <- app_assoc. f_equal.
    destruct (adds r) eqn:Hadds.
    + by rewrite filter_cons_True.
    + rewrite filter_cons_False; [done|congruence].
  - rewrite Hperm1, Hperm2.
    destruct (searches r) eqn:Hs.
    + by rewrite filter_cons_True.
    + rewrite filter_cons_False; [done|congruence].
Qed.

(** X11: the table of tab 1 is drawn before the sidebar handler runs, so
    in the run that adds a product the new row is not in it: tab 1 still
    reports an empty ledger (or shows the old rows), while the ledger
    already ends with the new row and the export button of the same run
    carries it.  The table of the next run, whatever that run is, shows
    the new row. *)
Theorem added_row_missing_from_table mean r w :
  adds r = true →
  let view := (script mean r w).1 in
  let w' := (script mean r w).2.2 in
  match products w with
  | [] =>
      view = [Subheader "Product Price Comparison";
              Drawn (StInfo "No products added yet. Use the sidebar to add products.")]
  | _ :: _ =>
      view !! 1 = Some (Dataframe (products w)
        (applymap_price_difference highlight_price_difference (products w)))
  end
  ∧ products w' = products w ++ [row_of (sidebar r)]
  ∧ last (screen w') =
      Some (StDownloadButton "Export Data to CSV"
              (to_csv (products w ++ [row_of (sidebar r)]))
              ("price_comparison_" +:+ stamp r +:+ ".csv") "text/csv")
  ∧ ∀ r', (script mean r' w').1 !! 1 =
      Some (Dataframe (products w ++ [row_of (sidebar r)])
              (applymap_price_difference highlight_price_difference
                 (products w ++ [row_of (sidebar r)]))).
Proof.
  intros Hadds. cbn zeta. unfold script. cbn [fst snd].
  split; [by destruct (products w)|].
  destruct (handlers_spec r w) as (drawn & reqs & -> & _).
  rewrite Hadds. cbn [snd products screen]. split; [done|].
  destruct (products w ++ [row_of (sidebar r)]) as [|r0 df] eqn:Hdf.
  { by destruct (products w). }
  split; [by rewrite !app_assoc, last_snoc|done].
Qed.

Lemma added_row_missing_from_table_witness :
  adds add_widget_run = true
  ∧ (script mean_of_head add_widget_run init_session).1
    = [Subheader "Product Price Comparison";
       Drawn (StInfo "No products added yet. Use the sidebar to add products.")]
  ∧ products (script mean_of_head add_widget_run init_session).2.2
    = products init_session ++ [row_of (sidebar add_widget_run)]
  ∧ last (screen (script mean_of_head add_widget_run init_session).2.2) =
      Some (StDownloadButton "Export Data to CSV"
              (to_csv (products init_session ++ [row_of (sidebar add_widget_run)]))
              ("price_comparison_" +:+ stamp add_widget_run +:+ ".csv")
              "text/csv")
  ∧ ∀ r', (script mean_of_head r'
             (script mean_of_head add_widget_run init_session).2.2).1 !! 1 =
      Some (Dataframe (products init_session ++ [row_of (sidebar add_widget_run)])
              (applymap_price_difference highlight_price_difference
                 (products init_session ++ [row_of (sidebar add_widget_run)]))).
Proof.
  split; [reflexivity|].
  exact (added_row_missing_from_table mean_of_head add_widget_run init_session
           eq_refl).
Defined.

(** X13: after any sequence of runs the ledger is the ledger before
    them followed by one row per accepted add, in run order; runs that
    press nothing, search, or press "Add Product" with an empty name or
    competitor leave no row.  So the Total Products metric grows by the
    number of accepted adds. *)
Theorem session_ledger runs w :
  products (session runs w) =
    products w ++ map (λ r, row_of (sidebar r)) (filter (λ r, adds r = true) runs)
  ∧ total_products (products (session runs w)) =
      (total_products (products w) + len (filter (λ r, adds r = true) runs))%Z.
Proof.
  destruct (session_spec runs w) as (drawn & reqs & -> & _).
  split; [done|]. unfold total_products, len. cbn [products].
  rewrite length_app, length_map. lia.
Qed.

(** X14: every row of a ledger grown from a fresh session has a non-empty
    Product Name and Competitor, and a Price Difference equal to
    [round(Your Price - Competitor Price, 2)] of its own two prices. *)
Theorem session_ledger_well_formed runs :
  Forall well_formed (products (session runs init_session)).
Proof.
  destruct (session_spec runs init_session) as (drawn & reqs & -> & _).
  cbn [products init_session app].
  apply Forall_map, Forall_forall. intros r [Hadds _]%list_elem_of_filter.
  apply row_of_well_formed. by apply adds_accepted in Hadds as [_ ?].
Qed.



(** * Equal prices *)

Lemma sub_self (x : float) : finite x → (x - x)%float = 0%float.
Proof.
  unfold finite. intros Hx.
  rewrite <- (SF2Prim_Prim2SF (x - x)), sub_spec.
  destruct (Prim2SF x) as [s|s| |s m e]; try done.
  - by destruct s.
  - unfold SF64sub, SFsub. by rewrite Z.min_id, Z.sub_diag.
Qed.

(** X16: when Your Price and Competitor Price are the same finite number,
    the new row's Price Difference is exactly 0.0; the row is coloured
    green and counted under Competitive Prices, not under Need Review. *)
Theorem equal_prices_competitive d n s x comp :
  finite x →
  let r := new_product d n s x comp x in
  Price_Difference r = 0%float
  ∧ highlight_price_difference (Number (Price_Difference r)) = "color: green"
  ∧ competitive_prices [r] = 1%Z
  ∧ need_review [r] = 0%Z.
Proof.
  intros Hx. cbn zeta.
  assert (Hzero : Price_Difference (new_product d n s x comp x) = 0%float).
  { cbn [Price_Difference new_product]. by rewrite (sub_self x Hx). }
  unfold need_review, total_products, competitive_prices.
  cbn [List.filter]. rewrite Hzero. done.
Qed.

Lemma equal_prices_competitive_witness :
  finite 19.99
  ∧ let r := new_product "2026-11-03" "Widget" "W1" 19.99 "ACME" 19.99 in
    Price_Difference r = 0%float
    ∧ highlight_price_difference (Number (Price_Difference r)) = "color: green"
    ∧ competitive_prices [r] = 1%Z
    ∧ need_review [r] = 0%Z.
Proof.
  assert (Hx : finite 19.99) by (vm_compute; exact I).
  split; [exact Hx|].
  exact (equal_prices_competitive "2026-11-03" "Widget" "W1" 19.99 "ACME" Hx).
Defined.
